(** * packages/database/src/operation.ts

    A shallow embedding of the database operation builder [DBOp] (the
    private constructor and the static entry points [get], [set], [del])
    and of the cache synchroniser [updateCache], followed by the properties
    of the key-space layer that the specification states about them.

    The file models the JavaScript that the TypeScript compiles to:
    - a numeric [enum] is a number, so a target is an integer and the
      [switch] of the constructor is a chain of strict equality tests with
      no [default] branch;
    - the non-null assertion [e!] and the cast [e as T] are erased by the
      compiler: they check nothing at run time.  Reading a property of
      [undefined] throws a [TypeError]; reading a missing property of an
      object yields [undefined], which is then handed on to the callee;
    - objects are references: the caches named by a [CacheMap] live in a
      store and [updateCache] updates them in place.

    The modules [./constants], [./compress] and [./manager] are imported by
    the source but are not part of it; they appear here as interfaces
    (type classes); a theorem holds for all their implementations, under
    the assumptions it names. *)

From Stdlib Require Import ZArith.
From Stdlib.Strings Require Import Byte.
From stdpp Require Import base option strings gmap functions.

Local Open Scope Z_scope.

(** ** JavaScript values and exceptions *)

Definition Buffer := list byte.

(** [BN] of ethereumjs-util: an arbitrary-precision integer. *)
Definition BN := Z.

Inductive JsError : Type :=
  | TypeError (msg : string)
  | Error (msg : string).

(** The outcome of a call: it returns a value or throws. *)
Inductive Exc (A : Type) : Type :=
  | Return (a : A)
  | Throw (e : JsError).
Arguments Return {A} a.
Arguments Throw {A} e.

#[export] Instance Exc_ret : MRet Exc := @Return.
#[export] Instance Exc_bind : MBind Exc := fun A B f m =>
  match m with
  | Return a => f a
  | Throw e => Throw e
  end.

#[export] Instance Exc_fmap : FMap Exc := fun A B f m =>
  match m with
  | Return a => Return (f a)
  | Throw e => Throw e
  end.

Definition returns {A} (m : Exc A) : bool :=
  match m with Return _ => true | Throw _ => false end.

Definition throws {A} (m : Exc A) : bool := negb (returns m).

(** [key: Buffer | string] *)
Inductive Key : Type :=
  | KString (s : string)
  | KBuffer (b : Buffer).

(** [value?: string | Buffer | object]; the only object stored through this
    layer is the head-pointer mapping, a dictionary from names to hashes. *)
Inductive Value : Type :=
  | VString (s : string)
  | VBuffer (b : Buffer)
  | VObject (o : list (string * Buffer)).

(** [Buffer.isBuffer(v)] on an optional value. *)
Definition isBuffer (v : option Value) : bool :=
  match v with
  | Some (VBuffer _) => true
  | _ => false
  end.

(** ** [enum DBTarget] *)

Module DBTarget.
Definition t : Type := Z.
Definition Heads : t := 0.
Definition HeadHeader : t := 1.
Definition HeadBlock : t := 2.
Definition HashToNumber : t := 3.
Definition NumberToHash : t := 4.
Definition TotalDifficulty : t := 5.
Definition Body : t := 6.
Definition Header : t := 7.
Definition CliqueSignerStates : t := 8.
Definition CliqueVotes : t := 9.
Definition CliqueBlockSigners : t := 10.
Definition Receipts : t := 100.
Definition TxLookup : t := 101.
Definition BloomBits : t := 102.
Definition BloomBitsSectionCount : t := 103.
Definition SnapAccount : t := 104.
Definition SnapStorage : t := 105.
Definition SnapRoot : t := 106.
Definition SnapJournal : t := 107.
Definition SnapGenerator : t := 108.
Definition SnapRecovery : t := 109.
Definition SnapDisabled : t := 110.
Definition SnapSyncProgress : t := 111.

(** The members of the enumeration, in declaration order. *)
Definition members : list t :=
  [ Heads; HeadHeader; HeadBlock; HashToNumber; NumberToHash;
    TotalDifficulty; Body; Header; CliqueSignerStates; CliqueVotes;
    CliqueBlockSigners; Receipts; TxLookup; BloomBits;
    BloomBitsSectionCount; SnapAccount; SnapStorage; SnapRoot;
    SnapJournal; SnapGenerator; SnapRecovery; SnapDisabled;
    SnapSyncProgress ].
End DBTarget.

(** ** [interface DBOpData], [type DatabaseKey], [class DBOp] *)

Record DBOpData : Type := mkDBOpData {
  type : option string;
  key : Key;
  keyEncoding : string;
  valueEncoding : option string;
  value : option Value
}.

Record DatabaseKey : Type := mkDatabaseKey {
  blockNumber : option BN;
  blockHash : option Buffer;
  txHash : option Buffer;
  bit : option Z;
  section : option BN;
  hash : option Buffer;
  accountHash : option Buffer;
  storageHash : option Buffer
}.

Record DBOp : Type := mkDBOp {
  operationTarget : DBTarget.t;
  baseDBOp : DBOpData;
  cacheString : option string
}.

(** Assignments to the fields of [this.baseDBOp] and of [this]. *)
Definition assign_key (k : Key) (this : DBOp) : DBOp :=
  let b := baseDBOp this in
  mkDBOp (operationTarget this)
         (mkDBOpData (type b) k (keyEncoding b) (valueEncoding b) (value b))
         (cacheString this).

Definition assign_keyEncoding (e : string) (this : DBOp) : DBOp :=
  let b := baseDBOp this in
  mkDBOp (operationTarget this)
         (mkDBOpData (type b) (key b) e (valueEncoding b) (value b))
         (cacheString this).

Definition assign_valueEncoding (e : string) (this : DBOp) : DBOp :=
  let b := baseDBOp this in
  mkDBOp (operationTarget this)
         (mkDBOpData (type b) (key b) (keyEncoding b) (Some e) (value b))
         (cacheString this).

Definition assign_type (ty : string) (this : DBOp) : DBOp :=
  let b := baseDBOp this in
  mkDBOp (operationTarget this)
         (mkDBOpData (Some ty) (key b) (keyEncoding b) (valueEncoding b) (value b))
         (cacheString this).

Definition assign_value (v : Value) (this : DBOp) : DBOp :=
  let b := baseDBOp this in
  mkDBOp (operationTarget this)
         (mkDBOpData (type b) (key b) (keyEncoding b) (valueEncoding b) (Some v))
         (cacheString this).

Definition assign_cacheString (s : string) (this : DBOp) : DBOp :=
  mkDBOp (operationTarget this) (baseDBOp this) (Some s).

(** [key!.f]: the property [f] of the optional bundle.  The [!] is erased;
    on [undefined] the property read throws. *)
Definition prop {A} (dbkey : option DatabaseKey) (f : DatabaseKey -> option A)
  : Exc (option A) :=
  match dbkey with
  | Some k => Return (f k)
  | None => Throw (TypeError "Cannot read properties of undefined")
  end.

(** ** The imported modules *)

(** [./constants]: the fixed keys and the key helpers.  A helper receives
    whatever the caller read from the bundle, [undefined] ([None]) included,
    and may throw. *)
Class Constants : Type := {
  HEADS_KEY : Key;
  HEAD_HEADER_KEY : Key;
  HEAD_BLOCK_KEY : Key;
  BLOOM_BITS_SECTION_COUNT : Key;
  CLIQUE_SIGNER_STATES_KEY : Key;
  CLIQUE_VOTES_KEY : Key;
  CLIQUE_BLOCK_SIGNERS_KEY : Key;
  SNAP_ROOT_KEY : Key;
  SNAP_JOURNAL_KEY : Key;
  SNAP_GENERATOR_KEY : Key;
  SNAP_RECOVERY_KEY : Key;
  SNAP_DISABLED_KEY : Key;
  SNAP_SYNC_PROGRESS_KEY : Key;
  tdKey : option BN -> option Buffer -> Exc Key;
  headerKey : option BN -> option Buffer -> Exc Key;
  bodyKey : option BN -> option Buffer -> Exc Key;
  numberToHashKey : option BN -> Exc Key;
  hashToNumberKey : option Buffer -> Exc Key;
  receiptsKey : option BN -> option Buffer -> Exc Key;
  txLookupKey : option Buffer -> Exc Key;
  bloomBitsKey : option Z -> option BN -> option Buffer -> Exc Key;
  snapAccountKey : option Buffer -> Exc Key;
  snapStorageKey : option Buffer -> option Buffer -> Exc Key
}.

(** [./compress]: the cast [value as Buffer] is erased, so [compressBytes]
    receives the caller's value as it is. *)
Class Compress : Type := {
  compressBytes : Value -> Exc Buffer
}.

(** [./manager]: a cache of a [CacheMap], with the two methods the source
    calls and the read that observes them. *)
Class Cache (C : Type) : Type := {
  cache_set : C -> Key -> Buffer -> C;
  cache_del : C -> Key -> C;
  cache_get : C -> Key -> option Buffer;
  cache_get_set : forall c k v, cache_get (cache_set c k v) k = Some v;
  cache_get_del : forall c k, cache_get (cache_del c k) k = None
}.

(** ** The constructor and the static entry points *)

Section Operation.
Context `{Constants} `{Compress}.

Import DBTarget.

Definition initial (operationTarget : DBTarget.t) : DBOp :=
  mkDBOp operationTarget
         (mkDBOpData None (KString "") "binary" (Some "binary") None)
         None.

Definition DBOp_new (operationTarget : DBTarget.t)
    (dbkey : option DatabaseKey) : Exc DBOp :=
  let this := initial operationTarget in
  if operationTarget =? Heads then
    Return (assign_valueEncoding "json" (assign_key HEADS_KEY this))
  else if operationTarget =? HeadHeader then
    Return (assign_key HEAD_HEADER_KEY this)
  else if operationTarget =? HeadBlock then
    Return (assign_key HEAD_BLOCK_KEY this)
  else if operationTarget =? HashToNumber then
    h ← prop dbkey blockHash;
    k ← hashToNumberKey h;
    Return (assign_cacheString "hashToNumber" (assign_key k this))
  else if operationTarget =? NumberToHash then
    n ← prop dbkey blockNumber;
    k ← numberToHashKey n;
    Return (assign_cacheString "numberToHash" (assign_key k this))
  else if operationTarget =? TotalDifficulty then
    n ← prop dbkey blockNumber;
    h ← prop dbkey blockHash;
    k ← tdKey n h;
    Return (assign_cacheString "td" (assign_key k this))
  else if operationTarget =? Body then
    n ← prop dbkey blockNumber;
    h ← prop dbkey blockHash;
    k ← bodyKey n h;
    Return (assign_cacheString "body" (assign_key k this))
  else if operationTarget =? Header then
    n ← prop dbkey blockNumber;
    h ← prop dbkey blockHash;
    k ← headerKey n h;
    Return (assign_cacheString "header" (assign_key k this))
  else if operationTarget =? CliqueSignerStates then
    Return (assign_key CLIQUE_SIGNER_STATES_KEY this)
  else if operationTarget =? CliqueVotes then
    Return (assign_key CLIQUE_VOTES_KEY this)
  else if operationTarget =? CliqueBlockSigners then
    Return (assign_key CLIQUE_BLOCK_SIGNERS_KEY this)
  else if operationTarget =? Receipts then
    n ← prop dbkey blockNumber;
    h ← prop dbkey blockHash;
    k ← receiptsKey n h;
    Return (assign_cacheString "receipts" (assign_key k this))
  else if operationTarget =? TxLookup then
    h ← prop dbkey txHash;
    k ← txLookupKey h;
    Return (assign_cacheString "txLookup" (assign_key k this))
  else if operationTarget =? BloomBits then
    b ← prop dbkey bit;
    s ← prop dbkey section;
    h ← prop dbkey hash;
    k ← bloomBitsKey b s h;
    Return (assign_key k this)
  else if operationTarget =? BloomBitsSectionCount then
    Return (assign_valueEncoding "none"
             (assign_keyEncoding "none"
               (assign_key BLOOM_BITS_SECTION_COUNT this)))
  else if operationTarget =? SnapAccount then
    a ← prop dbkey accountHash;
    k ← snapAccountKey a;
    Return (assign_cacheString "snapAccount" (assign_key k this))
  else if operationTarget =? SnapStorage then
    a ← prop dbkey accountHash;
    s ← prop dbkey storageHash;
    k ← snapStorageKey a s;
    Return (assign_cacheString "snapStorage" (assign_key k this))
  else if operationTarget =? SnapRoot then
    Return (assign_key SNAP_ROOT_KEY this)
  else if operationTarget =? SnapJournal then
    Return (assign_key SNAP_JOURNAL_KEY this)
  else if operationTarget =? SnapGenerator then
    Return (assign_key SNAP_GENERATOR_KEY this)
  else if operationTarget =? SnapRecovery then
    Return (assign_key SNAP_RECOVERY_KEY this)
  else if operationTarget =? SnapDisabled then
    Return (assign_key SNAP_DISABLED_KEY this)
  else if operationTarget =? SnapSyncProgress then
    Return (assign_key SNAP_SYNC_PROGRESS_KEY this)
  else
    Return this.

Definition DBOp_get (operationTarget : DBTarget.t)
    (dbkey : option DatabaseKey) : Exc DBOp :=
  DBOp_new operationTarget dbkey.

Definition DBOp_set (operationTarget : DBTarget.t) (v : Value)
    (dbkey : option DatabaseKey) : Exc DBOp :=
  dbOperation ← DBOp_new operationTarget dbkey;
  let dbOperation := assign_type "put" dbOperation in
  if operationTarget =? BloomBits then
    c ← compressBytes v;
    Return (assign_value (VBuffer c) dbOperation)
  else
    Return (assign_value v dbOperation).

Definition DBOp_del (operationTarget : DBTarget.t)
    (dbkey : option DatabaseKey) : Exc DBOp :=
  dbOperation ← DBOp_new operationTarget dbkey;
  Return (assign_type "del" dbOperation).

End Operation.

(** The three entry points share the constructor; [construct] names the
    entry point taken. *)
Inductive Entry : Type :=
  | ViaGet
  | ViaSet (v : Value)
  | ViaDel.

Definition construct `{Constants} `{Compress} (e : Entry)
    (operationTarget : DBTarget.t) (dbkey : option DatabaseKey) : Exc DBOp :=
  match e with
  | ViaGet => DBOp_get operationTarget dbkey
  | ViaSet v => DBOp_set operationTarget v dbkey
  | ViaDel => DBOp_del operationTarget dbkey
  end.

(** ** [updateCache] *)

(** JavaScript truthiness of [string | undefined]. *)
Definition truthy (s : option string) : bool :=
  match s with
  | Some s => negb (String.eqb s "")
  | None => false
  end.

Section UpdateCache.
Context {C : Type} `{Cache C}.

(** [cacheMap] maps a bucket name to a reference; the store [σ] holds the
    cache behind each reference.  Two names may share one cache. *)
Definition DBOp_updateCache (this : DBOp) (cacheMap : gmap string nat)
    (σ : nat -> C) : Exc unit * (nat -> C) :=
  if truthy (cacheString this) then
    match cacheMap !! default "" (cacheString this) with
    | Some l =>
      if bool_decide (type (baseDBOp this) = Some "put") then
        match value (baseDBOp this) with
        | Some (VBuffer v) =>
          (Return (), <[l := cache_set (σ l) (key (baseDBOp this)) v]> σ)
        | _ => (Return (), σ)
        end
      else if bool_decide (type (baseDBOp this) = Some "del") then
        (Return (), <[l := cache_del (σ l) (key (baseDBOp this))]> σ)
      else
        (Throw (Error "unsupported db operation on cache"), σ)
    | None => (Return (), σ)
    end
  else (Return (), σ).

(** The cache that the descriptor's bucket names in [cacheMap], if any. *)
Definition bucket (this : DBOp) (cacheMap : gmap string nat) : option nat :=
  if truthy (cacheString this)
  then cacheMap !! default "" (cacheString this)
  else None.

End UpdateCache.

(** ** The vocabulary of the specification *)

(** The fields of a discriminator bundle. *)
Inductive Field : Type :=
  | FblockNumber | FblockHash | FtxHash | Fbit
  | Fsection | Fhash | FaccountHash | FstorageHash.

Inductive FieldValue : Type :=
  | OfNumber (n : Z)
  | OfBN (n : BN)
  | OfBuffer (b : Buffer).

Definition field (k : DatabaseKey) (f : Field) : option FieldValue :=
  match f with
  | FblockNumber => OfBN <$> blockNumber k
  | FblockHash => OfBuffer <$> blockHash k
  | FtxHash => OfBuffer <$> txHash k
  | Fbit => OfNumber <$> bit k
  | Fsection => OfBN <$> section k
  | Fhash => OfBuffer <$> hash k
  | FaccountHash => OfBuffer <$> accountHash k
  | FstorageHash => OfBuffer <$> storageHash k
  end.

Definition present (k : DatabaseKey) (f : Field) : bool :=
  match field k f with Some _ => true | None => false end.

(** The derived-key targets and the discriminators each requires
    (specification, section 3). *)
Definition derived_targets : list DBTarget.t :=
  [ DBTarget.HashToNumber; DBTarget.NumberToHash; DBTarget.TotalDifficulty;
    DBTarget.Body; DBTarget.Header; DBTarget.Receipts; DBTarget.TxLookup;
    DBTarget.BloomBits; DBTarget.SnapAccount; DBTarget.SnapStorage ].

Definition required (t : DBTarget.t) : list Field :=
  if t =? DBTarget.HashToNumber then [FblockHash]
  else if t =? DBTarget.NumberToHash then [FblockNumber]
  else if t =? DBTarget.TotalDifficulty then [FblockNumber; FblockHash]
  else if t =? DBTarget.Body then [FblockNumber; FblockHash]
  else if t =? DBTarget.Header then [FblockNumber; FblockHash]
  else if t =? DBTarget.Receipts then [FblockNumber; FblockHash]
  else if t =? DBTarget.TxLookup then [FtxHash]
  else if t =? DBTarget.BloomBits then [Fbit; Fsection; Fhash]
  else if t =? DBTarget.SnapAccount then [FaccountHash]
  else if t =? DBTarget.SnapStorage then [FaccountHash; FstorageHash]
  else [].

(** The cache bucket of each target that has one (specification,
    section 3). *)
Definition cache_bucket (t : DBTarget.t) : option string :=
  if t =? DBTarget.HashToNumber then Some "hashToNumber"
  else if t =? DBTarget.NumberToHash then Some "numberToHash"
  else if t =? DBTarget.TotalDifficulty then Some "td"
  else if t =? DBTarget.Body then Some "body"
  else if t =? DBTarget.Header then Some "header"
  else if t =? DBTarget.Receipts then Some "receipts"
  else if t =? DBTarget.TxLookup then Some "txLookup"
  else if t =? DBTarget.SnapAccount then Some "snapAccount"
  else if t =? DBTarget.SnapStorage then Some "snapStorage"
  else None.

(** The encodings of each target (specification, section 4.1). *)
Definition key_encoding (t : DBTarget.t) : string :=
  if t =? DBTarget.BloomBitsSectionCount then "none" else "binary".

Definition value_encoding (t : DBTarget.t) : string :=
  if t =? DBTarget.Heads then "json"
  else if t =? DBTarget.BloomBitsSectionCount then "none"
  else "binary".

(** A bundle satisfies a target's requirements when every required field is
    present; an omitted bundle has no field. *)
Definition satisfies (t : DBTarget.t) (dbkey : option DatabaseKey) : bool :=
  match dbkey with
  | Some k => forallb (present k) (required t)
  | None => match required t with [] => true | _ => false end
  end.


(** Two bundles agree on what a target requires. *)
Definition agree (t : DBTarget.t) (d d' : option DatabaseKey) : Prop :=
  match d, d' with
  | Some k, Some k' => Forall (fun f => field k f = field k' f) (required t)
  | _, _ => required t = []
  end.

(** The fixed-key targets with the constant of each (specification,
    section 3). *)
Definition fixed_key `{Constants} (t : DBTarget.t) : option Key :=
  if t =? DBTarget.Heads then Some HEADS_KEY
  else if t =? DBTarget.HeadHeader then Some HEAD_HEADER_KEY
  else if t =? DBTarget.HeadBlock then Some HEAD_BLOCK_KEY
  else if t =? DBTarget.CliqueSignerStates then Some CLIQUE_SIGNER_STATES_KEY
  else if t =? DBTarget.CliqueVotes then Some CLIQUE_VOTES_KEY
  else if t =? DBTarget.CliqueBlockSigners then Some CLIQUE_BLOCK_SIGNERS_KEY
  else if t =? DBTarget.BloomBitsSectionCount then Some BLOOM_BITS_SECTION_COUNT
  else if t =? DBTarget.SnapRoot then Some SNAP_ROOT_KEY
  else if t =? DBTarget.SnapJournal then Some SNAP_JOURNAL_KEY
  else if t =? DBTarget.SnapGenerator then Some SNAP_GENERATOR_KEY
  else if t =? DBTarget.SnapRecovery then Some SNAP_RECOVERY_KEY
  else if t =? DBTarget.SnapDisabled then Some SNAP_DISABLED_KEY
  else if t =? DBTarget.SnapSyncProgress then Some SNAP_SYNC_PROGRESS_KEY
  else None.

(** The helper call the switch makes at each derived-key target: which
    helper, on which fields of the bundle, in which order (lines 112-181 of
    the source). *)
Definition helper_call `{Constants} (t : DBTarget.t) (k : DatabaseKey)
  : option (Exc Key) :=
  if t =? DBTarget.HashToNumber then Some (hashToNumberKey (blockHash k))
  else if t =? DBTarget.NumberToHash then
    Some (numberToHashKey (blockNumber k))
  else if t =? DBTarget.TotalDifficulty then
    Some (tdKey (blockNumber k) (blockHash k))
  else if t =? DBTarget.Body then Some (bodyKey (blockNumber k) (blockHash k))
  else if t =? DBTarget.Header then
    Some (headerKey (blockNumber k) (blockHash k))
  else if t =? DBTarget.Receipts then
    Some (receiptsKey (blockNumber k) (blockHash k))
  else if t =? DBTarget.TxLookup then Some (txLookupKey (txHash k))
  else if t =? DBTarget.BloomBits then
    Some (bloomBitsKey (bit k) (section k) (hash k))
  else if t =? DBTarget.SnapAccount then Some (snapAccountKey (accountHash k))
  else if t =? DBTarget.SnapStorage then
    Some (snapStorageKey (accountHash k) (storageHash k))
  else None.

(** A container shares no cache when distinct names lead to distinct
    caches. *)
Definition unshared (cacheMap : gmap string nat) : Prop :=
  forall n n' l, cacheMap !! n = Some l -> cacheMap !! n' = Some l -> n = n'.

(** What a descriptor tells the store and the cache about where the entry
    lives: key, key encoding, value encoding and cache bucket. *)
Definition address (d : DBOp) : Key * string * option string * option string :=
  (key (baseDBOp d), keyEncoding (baseDBOp d), valueEncoding (baseDBOp d),
   cacheString d).

(** ** A reference implementation of the imported modules *)

Module Reference.

(** The eight-byte big-endian encoding of a block number. *)
Definition byte_of (z : Z) : byte :=
  default x00 (Byte.of_N (Z.to_N (z mod 256))).

Fixpoint be (width : nat) (n : Z) : Buffer :=
  match width with
  | O => []
  | S w => be w (n / 256) ++ [byte_of n]
  end.

Definition bufBE8 (n : option BN) : Exc Buffer :=
  match n with
  | Some n => Return (be 8 n)
  | None => Throw (TypeError "Cannot read properties of undefined")
  end.

(** [Buffer.concat] rejects a list with an element that is no buffer. *)
Fixpoint concat (parts : list (option Buffer)) : Exc Buffer :=
  match parts with
  | [] => Return []
  | Some b :: rest => r ← concat rest; Return (b ++ r)
  | None :: _ => Throw (TypeError "list[i] must be a Buffer")
  end.

Definition prefixed (p : byte) (parts : list (option Buffer)) : Exc Key :=
  b ← concat (Some [p] :: parts); Return (KBuffer b).

Definition numbered (p : byte) (n : option BN) (parts : list (option Buffer))
  : Exc Key :=
  e ← bufBE8 n; prefixed p (Some e :: parts).

Definition bloom (b : option Z) (s : option BN) (h : option Buffer) : Exc Key :=
  match b with
  | Some b => e ← bufBE8 s; prefixed "B" [Some (be 2 b); Some e; h]
  | None => Throw (TypeError "value must be a number")
  end.

(** Modelled from the spec: the fixed keys and the key helpers of
    [./constants], which the source imports and does not contain.  The
    layouts follow section 4.1 (prefix, then big-endian number, then hash);
    the prefixes and the fixed keys are placeholders. *)
#[export] Instance constants : Constants := {|
  HEADS_KEY := KString "heads";
  HEAD_HEADER_KEY := KString "LastHeader";
  HEAD_BLOCK_KEY := KString "LastBlock";
  BLOOM_BITS_SECTION_COUNT := KString "scount";
  CLIQUE_SIGNER_STATES_KEY := KString "CliqueSigners";
  CLIQUE_VOTES_KEY := KString "CliqueVotes";
  CLIQUE_BLOCK_SIGNERS_KEY := KString "CliqueBlockSigners";
  SNAP_ROOT_KEY := KString "SnapshotRoot";
  SNAP_JOURNAL_KEY := KString "SnapshotJournal";
  SNAP_GENERATOR_KEY := KString "SnapshotGenerator";
  SNAP_RECOVERY_KEY := KString "SnapshotRecovery";
  SNAP_DISABLED_KEY := KString "SnapshotDisabled";
  SNAP_SYNC_PROGRESS_KEY := KString "SnapshotSyncStatus";
  tdKey n h := numbered "t" n [h];
  headerKey n h := numbered "h" n [h];
  bodyKey n h := numbered "b" n [h];
  numberToHashKey n := numbered "h" n [Some ["n"%byte]];
  hashToNumberKey h := prefixed "H" [h];
  receiptsKey n h := numbered "r" n [h];
  txLookupKey h := prefixed "l" [h];
  bloomBitsKey := bloom;
  snapAccountKey a := prefixed "a" [a];
  snapStorageKey a s := prefixed "o" [a; s]
|}.

(** Modelled from the spec: [compressBytes] of [./compress], a pure
    function from bytes to bytes (section 6); here it drops the zero bytes
    at the front and records how many there were. *)
Fixpoint strip (b : Buffer) : nat * Buffer :=
  match b with
  | x00 :: rest => let '(n, r) := strip rest in (S n, r)
  | _ => (O, b)
  end.

#[export] Instance compress : Compress := {|
  compressBytes v :=
    match v with
    | VBuffer b => let '(n, r) := strip b in
                   Return (byte_of (Z.of_nat n) :: r)
    | _ => Throw (TypeError "argument must be a Buffer")
    end
|}.

(** Modelled from the spec: a cache of the cache container of
    [./manager], a mapping from keys to bytes with get, set and delete
    (section 6); here an association list searched from the front. *)
Fixpoint Buffer_eqb (x y : Buffer) : bool :=
  match x, y with
  | [], [] => true
  | a :: x, b :: y => Byte.eqb a b && Buffer_eqb x y
  | _, _ => false
  end.

Definition Key_eqb (a b : Key) : bool :=
  match a, b with
  | KString s, KString s' => String.eqb s s'
  | KBuffer x, KBuffer y => Buffer_eqb x y
  | _, _ => false
  end.

Definition table : Type := list (Key * Buffer).

Fixpoint table_get (c : table) (k : Key) : option Buffer :=
  match c with
  | [] => None
  | (k', v) :: rest => if Key_eqb k' k then Some v else table_get rest k
  end.

Definition table_set (c : table) (k : Key) (v : Buffer) : table :=
  (k, v) :: c.

Fixpoint table_del (c : table) (k : Key) : table :=
  match c with
  | [] => []
  | (k', v) :: rest =>
    if Key_eqb k' k then table_del rest k else (k', v) :: table_del rest k
  end.

#[export, refine] Instance table_cache : Cache table := {|
  cache_set := table_set;
  cache_del := table_del;
  cache_get := table_get
|}.
Proof.
  - intros c k v. simpl.
    destruct k as [s|b]; simpl; [now rewrite String.eqb_refl|].
    assert (Buffer_eqb b b = true) as ->; [|reflexivity].
    induction b as [|a b IH]; [reflexivity|].
    simpl. rewrite IH. now rewrite (byte_dec_lb (eq_refl a)).
  - intros c k.
    induction c as [|[k' v] c IH]; [reflexivity|].
    simpl. destruct (Key_eqb k' k) eqn:E; [exact IH|].
    simpl. now rewrite E.
Defined.

End Reference.

(** ** Scenarios

    The requests and descriptors of the end-to-end scenarios of the
    specification (section 8), on the reference implementation. *)

Definition no_fields : DatabaseKey :=
  mkDatabaseKey None None None None None None None None.

(** [{ blockNumber: 42 }] *)
Definition number_42 : DatabaseKey :=
  mkDatabaseKey (Some 42) None None None None None None None.

(** [{ bit: 3, section: 7, hash: H }] *)
Definition bloom_3_7 : DatabaseKey :=
  mkDatabaseKey None None None (Some 3) (Some 7)
                (Some ["a"; "b"; "c"]%byte) None None.

(** A container with the one cache "numberToHash", empty, at reference 0. *)
Definition one_bucket : gmap string nat := {["numberToHash" := 0%nat]}.
Definition empty_caches : nat -> Reference.table := fun _ => [].

(** The descriptor of [DBOp.get(DBTarget.NumberToHash, { blockNumber: 42 })]
    on the reference helpers. *)
Definition read_number_42 : DBOp :=
  mkDBOp DBTarget.NumberToHash
         (mkDBOpData None
            (KBuffer ["h"; x00; x00; x00; x00; x00; x00; x00; "*"; "n"]%byte)
            "binary" (Some "binary") None)
         (Some "numberToHash").

(** The descriptor of
    [DBOp.set(DBTarget.NumberToHash, 'text', { blockNumber: 42 })]: a write
    at a cached target whose value is a string. *)
Definition write_text_42 : DBOp :=
  mkDBOp DBTarget.NumberToHash
         (mkDBOpData (Some "put")
            (KBuffer ["h"; x00; x00; x00; x00; x00; x00; x00; "*"; "n"]%byte)
            "binary" (Some "binary") (Some (VString "text")))
         (Some "numberToHash").

(** The descriptor of [DBOp.set(DBTarget.Heads, { head: ... })]. *)
Definition write_heads : DBOp :=
  mkDBOp DBTarget.Heads
         (mkDBOpData (Some "put") (KString "heads") "binary" (Some "json")
            (Some (VObject [("head", [x01; x02])])))
         None.

(** [{ blockNumber: 42, blockHash: <01 02> }] *)
Definition number_hash_42 : DatabaseKey :=
  mkDatabaseKey (Some 42) (Some [x01; x02]) None None None None None None.

(** The descriptors of [DBOp.del] and of [DBOp.set] with a buffer at
    [NumberToHash] for [{ blockNumber: 42 }]. *)
Definition delete_number_42 : DBOp := assign_type "del" read_number_42.

Definition write_buffer_42 : DBOp :=
  assign_value (VBuffer [x0a; x0b]) (assign_type "put" read_number_42).

(** The descriptor of [DBOp.get(DBTarget.Header, number_hash_42)]. *)
Definition read_header_42 : DBOp :=
  mkDBOp DBTarget.Header
         (mkDBOpData None
            (KBuffer
               ["h"; x00; x00; x00; x00; x00; x00; x00; "*"; x01; x02]%byte)
            "binary" (Some "binary") None)
         (Some "header").

(** A container with the caches "numberToHash" and "header", at the
    references 0 and 1. *)
Definition two_buckets : gmap string nat :=
  {["numberToHash" := 0%nat; "header" := 1%nat]}.

(** A store whose caches all hold a buffer under the key of
    [read_number_42]. *)
Definition filled_caches : nat -> Reference.table :=
  fun _ => [(key (baseDBOp read_number_42), [x0c])].



(** ** Helpers that accept a missing bit index *)

Module Tolerant.

(** The bit index goes through [new BN(bit)], which reads [undefined] as
    zero. *)
Definition bloom (b : option Z) (s : option BN) (h : option Buffer) : Exc Key :=
  e ← Reference.bufBE8 s;
  Reference.prefixed "B" [Some (Reference.be 2 (default 0 b)); Some e; h].

(** Modelled from the spec: the key helpers of [./constants], which the
    source imports and does not contain, as encoders that are total
    (section 4.1): the reference helpers, with a [bloomBitsKey] that
    returns a key for every bit argument. *)
#[export] Instance constants : Constants := {|
  HEADS_KEY := @HEADS_KEY Reference.constants;
  HEAD_HEADER_KEY := @HEAD_HEADER_KEY Reference.constants;
  HEAD_BLOCK_KEY := @HEAD_BLOCK_KEY Reference.constants;
  BLOOM_BITS_SECTION_COUNT := @BLOOM_BITS_SECTION_COUNT Reference.constants;
  CLIQUE_SIGNER_STATES_KEY := @CLIQUE_SIGNER_STATES_KEY Reference.constants;
  CLIQUE_VOTES_KEY := @CLIQUE_VOTES_KEY Reference.constants;
  CLIQUE_BLOCK_SIGNERS_KEY := @CLIQUE_BLOCK_SIGNERS_KEY Reference.constants;
  SNAP_ROOT_KEY := @SNAP_ROOT_KEY Reference.constants;
  SNAP_JOURNAL_KEY := @SNAP_JOURNAL_KEY Reference.constants;
  SNAP_GENERATOR_KEY := @SNAP_GENERATOR_KEY Reference.constants;
  SNAP_RECOVERY_KEY := @SNAP_RECOVERY_KEY Reference.constants;
  SNAP_DISABLED_KEY := @SNAP_DISABLED_KEY Reference.constants;
  SNAP_SYNC_PROGRESS_KEY := @SNAP_SYNC_PROGRESS_KEY Reference.constants;
  tdKey := @tdKey Reference.constants;
  headerKey := @headerKey Reference.constants;
  bodyKey := @bodyKey Reference.constants;
  numberToHashKey := @numberToHashKey Reference.constants;
  hashToNumberKey := @hashToNumberKey Reference.constants;
  receiptsKey := @receiptsKey Reference.constants;
  txLookupKey := @txLookupKey Reference.constants;
  bloomBitsKey := bloom;
  snapAccountKey := @snapAccountKey Reference.constants;
  snapStorageKey := @snapStorageKey Reference.constants
|}.

End Tolerant.

(** ** The entry points and the constructor *)

Ltac unfold_targets :=
  cbv [DBTarget.Heads DBTarget.HeadHeader DBTarget.HeadBlock
       DBTarget.HashToNumber DBTarget.NumberToHash DBTarget.TotalDifficulty
       DBTarget.Body DBTarget.Header DBTarget.CliqueSignerStates
       DBTarget.CliqueVotes DBTarget.CliqueBlockSigners DBTarget.Receipts
       DBTarget.TxLookup DBTarget.BloomBits DBTarget.BloomBitsSectionCount
       DBTarget.SnapAccount DBTarget.SnapStorage DBTarget.SnapRoot
       DBTarget.SnapJournal DBTarget.SnapGenerator DBTarget.SnapRecovery
       DBTarget.SnapDisabled DBTarget.SnapSyncProgress
       DBTarget.members derived_targets] in *.

(** Follow the [switch]: one case per member, and the fall-through. *)
Ltac switch_on t :=
  unfold_targets;
  repeat match goal with
         | |- context [Z.eqb t ?c] =>
           destruct (Z.eqb_spec t c) as [->|?]; cbn [Z.eqb Pos.eqb]
         end.

Section Entry_points.
Context `{Constants} `{Compress}.

Lemma bind_Return {A B} (m : Exc A) (f : A -> Exc B) (b : B) :
  m ≫= f = Return b -> exists a, m = Return a /\ f a = Return b.
Proof. destruct m as [a|x]; [eauto | discriminate]. Qed.

Lemma bind_Throw {A B} (m : Exc A) (f : A -> Exc B) (x : JsError) :
  m = Throw x -> m ≫= f = Throw x.
Proof. now intros ->. Qed.

(** Marking the kind and storing the value leave the address alone. *)
Lemma address_assign_type (ty : string) (d : DBOp) :
  address (assign_type ty d) = address d.
Proof. reflexivity. Qed.

Lemma address_assign_value (v : Value) (d : DBOp) :
  address (assign_value v d) = address d.
Proof. reflexivity. Qed.

(** A descriptor comes out of an entry point only through the constructor. *)
Lemma construct_Return (e : Entry) (t : DBTarget.t)
    (dbkey : option DatabaseKey) (d : DBOp) :
  construct e t dbkey = Return d ->
  exists d0, DBOp_new t dbkey = Return d0 /\ address d = address d0.
Proof.
  destruct e as [|v|]; simpl.
  - intros E. now exists d.
  - unfold DBOp_set. intros E.
    apply bind_Return in E as (d0 & E0 & E). exists d0. split; [exact E0|].
    destruct (t =? DBTarget.BloomBits).
    + apply bind_Return in E as (c & _ & E). now injection E as <-.
    + now injection E as <-.
  - unfold DBOp_del. intros E.
    apply bind_Return in E as (d0 & E0 & E). exists d0. split; [exact E0|].
    now injection E as <-.
Qed.

Lemma construct_Throw (e : Entry) (t : DBTarget.t)
    (dbkey : option DatabaseKey) (x : JsError) :
  DBOp_new t dbkey = Throw x -> construct e t dbkey = Throw x.
Proof.
  intros E. destruct e; simpl; [exact E| |]; now apply bind_Throw.
Qed.

(** Away from [BloomBits] an entry point returns whenever the constructor
    does. *)
Lemma construct_of_new (e : Entry) (t : DBTarget.t)
    (dbkey : option DatabaseKey) (d0 : DBOp) :
  DBOp_new t dbkey = Return d0 -> t <> DBTarget.BloomBits ->
  exists d, construct e t dbkey = Return d /\ address d = address d0.
Proof.
  intros E Hb. destruct e as [|v|]; simpl.
  - now exists d0.
  - unfold DBOp_set. rewrite E. simpl.
    destruct (Z.eqb_spec t DBTarget.BloomBits) as [?|_]; [contradiction|].
    eexists. split; reflexivity.
  - unfold DBOp_del. rewrite E. simpl. eexists. split; reflexivity.
Qed.

(** The constructor at a fixed-key target. *)
Lemma DBOp_new_fixed (t : DBTarget.t) (dbkey : option DatabaseKey) (k : Key) :
  fixed_key t = Some k ->
  exists d, DBOp_new t dbkey = Return d /\ key (baseDBOp d) = k
            /\ cacheString d = None /\ t <> DBTarget.BloomBits.
Proof.
  unfold fixed_key, DBOp_new. switch_on t; intros E; try discriminate;
    injection E as <-; (eexists; split; [reflexivity|]);
    repeat split; discriminate.
Qed.

(** The constructor at a number that is no member of the enumeration. *)
Lemma DBOp_new_outside (t : DBTarget.t) (dbkey : option DatabaseKey) :
  ~ In t DBTarget.members -> DBOp_new t dbkey = Return (initial t).
Proof.
  unfold DBOp_new. intros Hout. switch_on t; try reflexivity;
    exfalso; apply Hout; simpl; tauto.
Qed.

(** What the constructor leaves on a descriptor, target by target. *)
Lemma DBOp_new_Return (t : DBTarget.t) (dbkey : option DatabaseKey) (d : DBOp) :
  DBOp_new t dbkey = Return d ->
  operationTarget d = t
  /\ type (baseDBOp d) = None /\ value (baseDBOp d) = None
  /\ keyEncoding (baseDBOp d) = key_encoding t
  /\ valueEncoding (baseDBOp d) = Some (value_encoding t)
  /\ cacheString d = cache_bucket t.
Proof.
  unfold DBOp_new, key_encoding, value_encoding, cache_bucket.
  switch_on t; intros E;
    repeat (apply bind_Return in E as (? & _ & E));
    injection E as <-; repeat split.
Qed.

End Entry_points.

Lemma address_key (d d' : DBOp) :
  address d = address d' -> key (baseDBOp d) = key (baseDBOp d').
Proof. unfold address. now intros [= -> _ _ _]. Qed.

Lemma address_encodings (d d' : DBOp) :
  address d = address d' ->
  keyEncoding (baseDBOp d) = keyEncoding (baseDBOp d')
  /\ valueEncoding (baseDBOp d) = valueEncoding (baseDBOp d').
Proof. unfold address. now intros [= _ -> -> _]. Qed.

Lemma address_cacheString (d d' : DBOp) :
  address d = address d' -> cacheString d = cacheString d'.
Proof. unfold address. now intros [= _ _ _ ->]. Qed.

(** ** Fixed keys, encodings and targets outside the enumeration *)

Section Registry.
Context `{Constants} `{Compress}.

(** C9.  At a fixed-key target every entry point returns a descriptor, for
    every discriminator bundle and for none, and the key of the descriptor
    is the constant of the target: the bundle plays no part. *)
Theorem fixed_key_stability (e : Entry) (t : DBTarget.t)
    (dbkey : option DatabaseKey) (k : Key) :
  fixed_key t = Some k ->
  exists d, construct e t dbkey = Return d /\ key (baseDBOp d) = k.
Proof.
  intros Hk.
  destruct (DBOp_new_fixed t dbkey k Hk) as (d0 & E0 & Hkey & _ & Hb).
  destruct (construct_of_new e t dbkey d0 E0 Hb) as (d & E & Ha).
  exists d. split; [exact E|]. now rewrite (address_key _ _ Ha).
Qed.

(** C10.  At a target that is no member of the enumeration no case of the
    switch applies: every entry point returns a descriptor with the empty
    string as key, binary key and value encodings and no cache bucket. *)
Theorem outside_enum_default (e : Entry) (t : DBTarget.t)
    (dbkey : option DatabaseKey) :
  ~ In t DBTarget.members ->
  exists d, construct e t dbkey = Return d
            /\ key (baseDBOp d) = KString ""
            /\ keyEncoding (baseDBOp d) = "binary"
            /\ valueEncoding (baseDBOp d) = Some "binary"
            /\ cacheString d = None.
Proof.
  intros Hout.
  assert (t <> DBTarget.BloomBits) as Hb.
  { intros ->. apply Hout. unfold_targets. simpl. tauto. }
  pose proof (DBOp_new_outside t dbkey Hout) as E0.
  destruct (construct_of_new e t dbkey _ E0 Hb) as (d & E & Ha).
  exists d. split; [exact E|].
  rewrite (address_key _ _ Ha), (address_cacheString _ _ Ha).
  destruct (address_encodings _ _ Ha) as [-> ->]. now repeat split.
Qed.

(** C8.  Of every descriptor an entry point returns: at [Heads] the value
    encoding is json (and the key encoding binary); at
    [BloomBitsSectionCount] both encodings are none; at every other target
    both are binary; so a key encoding other than binary means the target
    is [BloomBitsSectionCount].  At the two named targets a descriptor is
    always returned. *)
Theorem encodings_by_target (e : Entry) (dbkey : option DatabaseKey) :
  (exists d, construct e DBTarget.Heads dbkey = Return d
             /\ keyEncoding (baseDBOp d) = "binary"
             /\ valueEncoding (baseDBOp d) = Some "json")
  /\ (exists d, construct e DBTarget.BloomBitsSectionCount dbkey = Return d
                /\ keyEncoding (baseDBOp d) = "none"
                /\ valueEncoding (baseDBOp d) = Some "none")
  /\ (forall t d, construct e t dbkey = Return d ->
        t <> DBTarget.Heads -> t <> DBTarget.BloomBitsSectionCount ->
        keyEncoding (baseDBOp d) = "binary"
        /\ valueEncoding (baseDBOp d) = Some "binary")
  /\ (forall t d, construct e t dbkey = Return d ->
        keyEncoding (baseDBOp d) <> "binary" ->
        t = DBTarget.BloomBitsSectionCount).
Proof.
  assert (forall t d, construct e t dbkey = Return d ->
            keyEncoding (baseDBOp d) = key_encoding t
            /\ valueEncoding (baseDBOp d) = Some (value_encoding t)) as Henc.
  { intros t d E. apply construct_Return in E as (d0 & E0 & Ha).
    apply DBOp_new_Return in E0 as (_ & _ & _ & Hk & Hv & _).
    destruct (address_encodings _ _ Ha) as [-> ->]. now split. }
  assert (forall t k, fixed_key t = Some k ->
            exists d, construct e t dbkey = Return d
                      /\ keyEncoding (baseDBOp d) = key_encoding t
                      /\ valueEncoding (baseDBOp d) = Some (value_encoding t))
    as Hfix.
  { intros t k Hk.
    destruct (DBOp_new_fixed t dbkey k Hk) as (d0 & E0 & _ & _ & Hb).
    destruct (construct_of_new e t dbkey d0 E0 Hb) as (d & E & _).
    exists d. split; [exact E|]. now apply Henc. }
  split; [exact (Hfix DBTarget.Heads _ eq_refl)|].
  split; [exact (Hfix DBTarget.BloomBitsSectionCount _ eq_refl)|].
  split.
  - intros t d E Hh Hs. destruct (Henc t d E) as [-> ->].
    unfold key_encoding, value_encoding.
    destruct (Z.eqb_spec t DBTarget.Heads); [contradiction|].
    destruct (Z.eqb_spec t DBTarget.BloomBitsSectionCount); [contradiction|].
    now split.
  - intros t d E Hne. destruct (Henc t d E) as [Hk _].
    rewrite Hk in Hne. unfold key_encoding in Hne.
    destruct (Z.eqb_spec t DBTarget.BloomBitsSectionCount); [assumption|].
    now contradiction Hne.
Qed.

(** C3.  Where the constructor returns, a write at [BloomBits] stores the
    result of [compressBytes] on the caller's value (and throws what
    [compressBytes] throws), and a write at any other target stores the
    caller's value as it is; the address is the constructor's. *)
Theorem set_stores_value (t : DBTarget.t) (v : Value)
    (dbkey : option DatabaseKey) (d0 : DBOp) :
  DBOp_get t dbkey = Return d0 ->
  (t = DBTarget.BloomBits ->
     (forall c, compressBytes v = Return c ->
        exists d, DBOp_set t v dbkey = Return d
                  /\ value (baseDBOp d) = Some (VBuffer c)
                  /\ type (baseDBOp d) = Some "put"
                  /\ address d = address d0)
     /\ (forall x, compressBytes v = Throw x -> DBOp_set t v dbkey = Throw x))
  /\ (t <> DBTarget.BloomBits ->
        exists d, DBOp_set t v dbkey = Return d
                  /\ value (baseDBOp d) = Some v
                  /\ type (baseDBOp d) = Some "put"
                  /\ address d = address d0).
Proof.
  unfold DBOp_get, DBOp_set. intros ->. simpl. split.
  - intros ->. simpl. split.
    + intros c ->. simpl. eexists. now repeat split.
    + now intros x ->.
  - intros Hb. destruct (Z.eqb_spec t DBTarget.BloomBits); [contradiction|].
    eexists. now repeat split.
Qed.

End Registry.

(** ** Missing discriminators and determinism *)

Section Derivation.
Context `{Constants} `{Compress}.

(** With the bundle omitted the constructor throws at the first property
    read, whatever the helpers are. *)
Lemma DBOp_new_no_bundle (t : DBTarget.t) :
  In t derived_targets ->
  DBOp_new t None = Throw (TypeError "Cannot read properties of undefined").
Proof.
  unfold_targets. simpl.
  intros Hin; repeat destruct Hin as [<-|Hin]; try contradiction; reflexivity.
Qed.

(** The constructor itself checks no field: at [HashToNumber], say, a bundle
    without [blockHash] reaches the helper as [undefined], and whether a
    descriptor comes back is the helper's doing. *)
Lemma DBOp_new_delegates (k : DatabaseKey) :
  blockHash k = None ->
  DBOp_new DBTarget.HashToNumber (Some k)
  = key ← hashToNumberKey None;
    Return (assign_cacheString "hashToNumber"
              (assign_key key (initial DBTarget.HashToNumber))).
Proof. unfold DBOp_new. simpl. now intros ->. Qed.

Lemma fmap_Some_inj {A B} (f : A -> B) (x y : option A) :
  (forall a b, f a = f b -> a = b) -> f <$> x = f <$> y -> x = y.
Proof.
  intros Hf. destruct x, y; simpl; intros E; try discriminate;
    [injection E as E; f_equal; auto | reflexivity].
Qed.

Lemma agree_refl (t : DBTarget.t) (dbkey : option DatabaseKey) :
  satisfies t dbkey = true -> agree t dbkey dbkey.
Proof.
  destruct dbkey as [k|]; simpl.
  - intros _. now apply Forall_forall.
  - now destruct (required t).
Qed.

(** The constructor reads of a bundle only what the target requires. *)
Lemma DBOp_new_agree (t : DBTarget.t) (dbkey dbkey' : option DatabaseKey) :
  agree t dbkey dbkey' -> DBOp_new t dbkey = DBOp_new t dbkey'.
Proof.
  assert (forall (a b : Buffer), OfBuffer a = OfBuffer b -> a = b) as ib
      by (intros a b [=]; assumption).
  assert (forall (a b : BN), OfBN a = OfBN b -> a = b) as ibn
      by (intros a b [=]; assumption).
  assert (forall (a b : Z), OfNumber a = OfNumber b -> a = b) as inum
      by (intros a b [=]; assumption).
  unfold agree, required, DBOp_new.
  switch_on t; try reflexivity;
    (destruct dbkey as [k|], dbkey' as [k'|]; try discriminate);
    intros Hf;
    repeat match goal with
           | Hc : Forall _ (_ :: _) |- _ =>
             apply Forall_cons_1 in Hc; destruct Hc as [? ?]
           end;
    cbn [field] in *;
    repeat match goal with
           | E : _ <$> _ = _ <$> _ |- _ =>
             apply fmap_Some_inj in E; [|assumption]
           end;
    cbn [prop mbind Exc_bind]; congruence.
Qed.

(** C2.  Key derivation is deterministic.  For a bundle that satisfies the
    target's requirements and any bundle that agrees with it on the fields
    the target requires (the same bundle, in particular), an entry point
    gives the same outcome on both, with the same key, encodings and cache
    bucket; and any two descriptors built for them, through whichever
    entry points, have the same key, encodings and cache bucket. *)
Theorem key_derivation_deterministic (t : DBTarget.t)
    (dbkey dbkey' : option DatabaseKey) :
  satisfies t dbkey = true -> agree t dbkey dbkey' ->
  (forall e, construct e t dbkey = construct e t dbkey')
  /\ (forall e e' d d',
        construct e t dbkey = Return d -> construct e' t dbkey' = Return d' ->
        address d = address d').
Proof.
  intros _ Ha. pose proof (DBOp_new_agree t dbkey dbkey' Ha) as En. split.
  - intros [|v|]; simpl; unfold DBOp_get, DBOp_set, DBOp_del; now rewrite En.
  - intros e e' d d' E E'.
    apply construct_Return in E as (d0 & E0 & ->).
    apply construct_Return in E' as (d0' & E0' & ->).
    rewrite En in E0. rewrite E0 in E0'. now injection E0' as ->.
Qed.

End Derivation.

(** ** The cache synchroniser *)

Section Synchroniser.
Context {C : Type} `{Cache C}.

Lemma bucket_None_cacheString (this : DBOp) (cacheMap : gmap string nat) :
  cacheString this = None -> bucket this cacheMap = None.
Proof. unfold bucket. now intros ->. Qed.

Lemma bucket_None_lookup (this : DBOp) (cacheMap : gmap string nat)
    (s : string) :
  cacheString this = Some s -> cacheMap !! s = None ->
  bucket this cacheMap = None.
Proof.
  unfold bucket. intros -> Hs. simpl. now destruct (negb (String.eqb s "")).
Qed.

(** The synchroniser in terms of the bucket it finds. *)
Lemma updateCache_bucket (this : DBOp) (cacheMap : gmap string nat)
    (σ : nat -> C) :
  DBOp_updateCache this cacheMap σ =
  match bucket this cacheMap with
  | Some l =>
    if bool_decide (type (baseDBOp this) = Some "put") then
      match value (baseDBOp this) with
      | Some (VBuffer v) =>
        (Return (), <[l := cache_set (σ l) (key (baseDBOp this)) v]> σ)
      | _ => (Return (), σ)
      end
    else if bool_decide (type (baseDBOp this) = Some "del") then
      (Return (), <[l := cache_del (σ l) (key (baseDBOp this))]> σ)
    else (Throw (Error "unsupported db operation on cache"), σ)
  | None => (Return (), σ)
  end.
Proof.
  unfold DBOp_updateCache, bucket.
  destruct (truthy (cacheString this)); reflexivity.
Qed.

(** C5 (as amended).  A descriptor whose kind is neither put nor del, as
    the one [get] builds, makes the synchroniser throw
    "unsupported db operation on cache" exactly when the descriptor names a
    bucket and the cache container holds it; the caches stay as they were.
    When there is no such bucket the call returns and changes nothing. *)
Theorem updateCache_unsupported (this : DBOp) (cacheMap : gmap string nat)
    (σ : nat -> C) :
  type (baseDBOp this) <> Some "put" -> type (baseDBOp this) <> Some "del" ->
  (forall l, bucket this cacheMap = Some l ->
     DBOp_updateCache this cacheMap σ
     = (Throw (Error "unsupported db operation on cache"), σ))
  /\ (bucket this cacheMap = None ->
      DBOp_updateCache this cacheMap σ = (Return (), σ)).
Proof.
  intros Hp Hd. rewrite updateCache_bucket. split.
  - intros l ->. now rewrite !bool_decide_eq_false_2.
  - now intros ->.
Qed.

(** C6.  A write descriptor whose value is no buffer leaves every cache as
    it was, and the call returns. *)
Theorem updateCache_non_buffer (this : DBOp) (cacheMap : gmap string nat)
    (σ : nat -> C) :
  type (baseDBOp this) = Some "put" ->
  isBuffer (value (baseDBOp this)) = false ->
  DBOp_updateCache this cacheMap σ = (Return (), σ).
Proof.
  intros Hp Hv. rewrite updateCache_bucket.
  destruct (bucket this cacheMap) as [l|]; [|reflexivity].
  rewrite bool_decide_eq_true_2 by assumption.
  destruct (value (baseDBOp this)) as [[s|b|o]|]; try reflexivity.
  discriminate.
Qed.

End Synchroniser.

Section Frame.
Context {C : Type} `{Cache C} `{Constants} `{Compress}.

(** C7.  The synchroniser changes no cache other than the one the
    descriptor's bucket names in the container.  When the descriptor has
    no cache bucket, or the container has no cache under that name, the
    call returns and changes nothing, whatever the kind of the operation;
    this is so for every descriptor built at [BloomBits] or at a fixed-key
    target. *)
Theorem updateCache_frame (this : DBOp) (cacheMap : gmap string nat)
    (σ : nat -> C) :
  (forall l, bucket this cacheMap <> Some l ->
     (DBOp_updateCache this cacheMap σ).2 l = σ l)
  /\ (cacheString this = None \/
      (exists s, cacheString this = Some s /\ cacheMap !! s = None) ->
      DBOp_updateCache this cacheMap σ = (Return (), σ))
  /\ (forall e t dbkey,
        construct e t dbkey = Return this ->
        t = DBTarget.BloomBits \/ is_Some (fixed_key t) ->
        DBOp_updateCache this cacheMap σ = (Return (), σ)).
Proof.
  assert (bucket this cacheMap = None ->
          DBOp_updateCache this cacheMap σ = (Return (), σ)) as Hnone.
  { intros E. rewrite updateCache_bucket. now rewrite E. }
  split; [|split].
  - intros l Hl. rewrite updateCache_bucket.
    destruct (bucket this cacheMap) as [l0|]; [|reflexivity].
    assert (l0 <> l) as Hne by congruence.
    destruct (bool_decide (type (baseDBOp this) = Some "put")).
    + destruct (value (baseDBOp this)) as [[s|b|o]|]; try reflexivity.
      simpl. now rewrite fn_lookup_insert_ne.
    + destruct (bool_decide (type (baseDBOp this) = Some "del"));
        [|reflexivity].
      simpl. now rewrite fn_lookup_insert_ne.
  - intros [E|(s & E & Hs)]; apply Hnone.
    + now apply bucket_None_cacheString.
    + now apply (bucket_None_lookup _ _ s).
  - intros e t dbkey E Ht. apply Hnone, bucket_None_cacheString.
    apply construct_Return in E as (d0 & E0 & Ha).
    rewrite (address_cacheString _ _ Ha).
    apply DBOp_new_Return in E0 as (_ & _ & _ & _ & _ & ->).
    destruct Ht as [->|[k Hk]]; [reflexivity|].
    revert Hk. unfold fixed_key, cache_bucket.
    switch_on t; try reflexivity; discriminate.
Qed.

(** C4.  Cache coherence.  Let the target have a cache bucket, let the
    bundle be one on which the constructor returns, and let the container
    hold a cache under the bucket's name.  Then a write of a buffer and a
    delete are built with the constructor's key; synchronising the write
    returns and leaves the buffer under that key in the named cache; and
    synchronising the delete after it returns and leaves no entry under
    that key. *)
Theorem cache_coherence (t : DBTarget.t) (dbkey : option DatabaseKey)
    (v : Buffer) (d0 : DBOp) (b : string) (cacheMap : gmap string nat)
    (l : nat) (σ : nat -> C) :
  DBOp_get t dbkey = Return d0 ->
  cacheString d0 = Some b ->
  cacheMap !! b = Some l ->
  exists w x,
    DBOp_set t (VBuffer v) dbkey = Return w
    /\ DBOp_del t dbkey = Return x
    /\ key (baseDBOp w) = key (baseDBOp d0)
    /\ key (baseDBOp x) = key (baseDBOp d0)
    /\ (DBOp_updateCache w cacheMap σ).1 = Return ()
    /\ cache_get ((DBOp_updateCache w cacheMap σ).2 l) (key (baseDBOp d0))
       = Some v
    /\ (DBOp_updateCache x cacheMap (DBOp_updateCache w cacheMap σ).2).1
       = Return ()
    /\ cache_get
         ((DBOp_updateCache x cacheMap (DBOp_updateCache w cacheMap σ).2).2 l)
         (key (baseDBOp d0))
       = None.
Proof.
  unfold DBOp_get. intros E0 Hb Hl.
  pose proof (DBOp_new_Return t dbkey d0 E0) as (_ & _ & _ & _ & _ & Hc).
  rewrite Hb in Hc.
  assert (t <> DBTarget.BloomBits) as Hbb by (intros ->; discriminate).
  assert (truthy (Some b) = true) as Htr.
  { revert Hc. unfold cache_bucket.
    switch_on t; intros [= ->]; reflexivity. }
  unfold DBOp_set, DBOp_del. rewrite E0. simpl.
  destruct (Z.eqb_spec t DBTarget.BloomBits); [contradiction|].
  eexists. eexists. split; [reflexivity|]. split; [reflexivity|].
  split; [reflexivity|]. split; [reflexivity|].
  assert (forall ty vo, bucket (mkDBOp (operationTarget d0)
            (mkDBOpData ty (key (baseDBOp d0)) (keyEncoding (baseDBOp d0))
               (valueEncoding (baseDBOp d0)) vo) (cacheString d0)) cacheMap
          = Some l) as Hbk.
  { intros ty vo. unfold bucket. simpl. rewrite Hb, Htr. exact Hl. }
  rewrite !updateCache_bucket.
  unfold assign_value, assign_type. simpl. rewrite !Hbk. simpl.
  repeat split.
  - rewrite fn_lookup_insert. apply cache_get_set.
  - rewrite fn_lookup_insert. apply cache_get_del.
Qed.

End Frame.

(** ** The properties on the reference implementation *)

#[local] Existing Instance Reference.table_cache.

Example new_without_bundle :
  @DBOp_new Reference.constants DBTarget.HashToNumber None
  = Throw (TypeError "Cannot read properties of undefined").
Proof. reflexivity. Qed.

Example new_without_field :
  @DBOp_new Reference.constants DBTarget.HashToNumber (Some no_fields)
  = Throw (TypeError "list[i] must be a Buffer").
Proof. reflexivity. Qed.

Lemma key_derivation_deterministic_witness :
  satisfies DBTarget.NumberToHash (Some number_42) = true
  /\ agree DBTarget.NumberToHash (Some number_42) (Some number_42)
  /\ (forall e,
        @construct Reference.constants Reference.compress e
          DBTarget.NumberToHash (Some number_42)
        = @construct Reference.constants Reference.compress e
            DBTarget.NumberToHash (Some number_42))
  /\ (forall e e' d d',
        @construct Reference.constants Reference.compress e
          DBTarget.NumberToHash (Some number_42) = Return d ->
        @construct Reference.constants Reference.compress e'
          DBTarget.NumberToHash (Some number_42) = Return d' ->
        address d = address d').
Proof.
  assert (satisfies DBTarget.NumberToHash (Some number_42) = true) as Hs
      by reflexivity.
  assert (agree DBTarget.NumberToHash (Some number_42) (Some number_42))
    as Ha by (repeat constructor).
  split; [exact Hs|]. split; [exact Ha|].
  exact (@key_derivation_deterministic Reference.constants Reference.compress
           DBTarget.NumberToHash (Some number_42) (Some number_42) Hs Ha).
Defined.

Lemma fixed_key_stability_witness :
  @fixed_key Reference.constants DBTarget.HeadHeader
  = Some (KString "LastHeader")
  /\ exists d,
       @construct Reference.constants Reference.compress ViaDel
         DBTarget.HeadHeader (Some bloom_3_7) = Return d
       /\ key (baseDBOp d) = KString "LastHeader".
Proof.
  split; [reflexivity|].
  apply (@fixed_key_stability Reference.constants Reference.compress ViaDel
           DBTarget.HeadHeader (Some bloom_3_7) (KString "LastHeader")).
  reflexivity.
Defined.

Lemma outside_enum_default_witness :
  ~ In 11 DBTarget.members
  /\ exists d,
       @construct Reference.constants Reference.compress ViaGet 11 None
       = Return d
       /\ key (baseDBOp d) = KString ""
       /\ keyEncoding (baseDBOp d) = "binary"
       /\ valueEncoding (baseDBOp d) = Some "binary"
       /\ cacheString d = None.
Proof.
  assert (~ In 11 DBTarget.members) as Hout.
  { unfold_targets. simpl. intros Hin.
    repeat destruct Hin as [Hin|Hin]; try discriminate. exact Hin. }
  split; [exact Hout|].
  exact (@outside_enum_default Reference.constants Reference.compress ViaGet
           11 None Hout).
Defined.

Lemma set_stores_value_witness :
  exists d0,
    @DBOp_get Reference.constants DBTarget.BloomBits (Some bloom_3_7)
    = Return d0
    /\ (DBTarget.BloomBits = DBTarget.BloomBits ->
        (forall c,
           @compressBytes Reference.compress (VBuffer [x00; x00; x05])
           = Return c ->
           exists d,
             @DBOp_set Reference.constants Reference.compress
               DBTarget.BloomBits (VBuffer [x00; x00; x05]) (Some bloom_3_7)
             = Return d
             /\ value (baseDBOp d) = Some (VBuffer c)
             /\ type (baseDBOp d) = Some "put"
             /\ address d = address d0)
        /\ (forall x,
              @compressBytes Reference.compress (VBuffer [x00; x00; x05])
              = Throw x ->
              @DBOp_set Reference.constants Reference.compress
                DBTarget.BloomBits (VBuffer [x00; x00; x05]) (Some bloom_3_7)
              = Throw x))
    /\ (DBTarget.BloomBits <> DBTarget.BloomBits ->
        exists d,
          @DBOp_set Reference.constants Reference.compress
            DBTarget.BloomBits (VBuffer [x00; x00; x05]) (Some bloom_3_7)
          = Return d
          /\ value (baseDBOp d) = Some (VBuffer [x00; x00; x05])
          /\ type (baseDBOp d) = Some "put"
          /\ address d = address d0).
Proof.
  eexists. split; [reflexivity|].
  apply (@set_stores_value Reference.constants Reference.compress
           DBTarget.BloomBits (VBuffer [x00; x00; x05]) (Some bloom_3_7)).
  reflexivity.
Defined.

Example get_number_42 :
  @DBOp_get Reference.constants DBTarget.NumberToHash (Some number_42)
  = Return read_number_42.
Proof. reflexivity. Qed.

Example set_text_42 :
  @DBOp_set Reference.constants Reference.compress DBTarget.NumberToHash
    (VString "text") (Some number_42)
  = Return write_text_42.
Proof. reflexivity. Qed.

Example set_heads :
  @DBOp_set Reference.constants Reference.compress DBTarget.Heads
    (VObject [("head", [x01; x02])]) None
  = Return write_heads.
Proof. reflexivity. Qed.

Lemma cache_coherence_witness :
  @DBOp_get Reference.constants DBTarget.NumberToHash (Some number_42)
  = Return read_number_42
  /\ cacheString read_number_42 = Some "numberToHash"
  /\ one_bucket !! "numberToHash" = Some 0%nat
  /\ exists w x,
       @DBOp_set Reference.constants Reference.compress
         DBTarget.NumberToHash (VBuffer [x0a; x0b]) (Some number_42)
       = Return w
       /\ @DBOp_del Reference.constants DBTarget.NumberToHash
            (Some number_42) = Return x
       /\ key (baseDBOp w) = key (baseDBOp read_number_42)
       /\ key (baseDBOp x) = key (baseDBOp read_number_42)
       /\ (DBOp_updateCache w one_bucket empty_caches).1 = Return ()
       /\ cache_get ((DBOp_updateCache w one_bucket empty_caches).2 0%nat)
            (key (baseDBOp read_number_42))
          = Some [x0a; x0b]
       /\ (DBOp_updateCache x one_bucket
             (DBOp_updateCache w one_bucket empty_caches).2).1 = Return ()
       /\ cache_get
            ((DBOp_updateCache x one_bucket
                (DBOp_updateCache w one_bucket empty_caches).2).2 0%nat)
            (key (baseDBOp read_number_42))
          = None.
Proof.
  assert (one_bucket !! "numberToHash" = Some 0%nat) as Hl by reflexivity.
  split; [reflexivity|]. split; [reflexivity|]. split; [exact Hl|].
  exact (@cache_coherence Reference.table Reference.table_cache
           Reference.constants Reference.compress DBTarget.NumberToHash
           (Some number_42) [x0a; x0b] read_number_42 "numberToHash"
           one_bucket 0%nat empty_caches eq_refl eq_refl Hl).
Defined.

(** C5 as the specification words it fails: a read at [Heads] has no cache
    bucket, and the synchroniser returns on it without an error. *)
Lemma read_without_bucket_returns :
  exists d,
    @DBOp_get Reference.constants DBTarget.Heads None = Return d
    /\ type (baseDBOp d) = None
    /\ @DBOp_updateCache Reference.table Reference.table_cache d one_bucket
         empty_caches
       = (Return (), empty_caches).
Proof. eexists. repeat split. Qed.

Example read_with_bucket_throws :
  DBOp_updateCache read_number_42 one_bucket empty_caches
  = (Throw (Error "unsupported db operation on cache"), empty_caches).
Proof. reflexivity. Qed.

(** A read whose bucket the container does not hold returns as well. *)
Example read_with_unconfigured_bucket_returns :
  DBOp_updateCache read_number_42 ∅ empty_caches
  = (Return (), empty_caches).
Proof. reflexivity. Qed.

Lemma updateCache_unsupported_witness :
  type (baseDBOp read_number_42) <> Some "put"
  /\ type (baseDBOp read_number_42) <> Some "del"
  /\ (forall l, bucket read_number_42 one_bucket = Some l ->
        DBOp_updateCache read_number_42 one_bucket empty_caches
        = (Throw (Error "unsupported db operation on cache"), empty_caches))
  /\ (bucket read_number_42 one_bucket = None ->
      DBOp_updateCache read_number_42 one_bucket empty_caches
      = (Return (), empty_caches)).
Proof.
  assert (type (baseDBOp read_number_42) <> Some "put") as Hp
      by discriminate.
  assert (type (baseDBOp read_number_42) <> Some "del") as Hd
      by discriminate.
  split; [exact Hp|]. split; [exact Hd|].
  exact (@updateCache_unsupported Reference.table Reference.table_cache
           read_number_42 one_bucket empty_caches Hp Hd).
Defined.

Lemma updateCache_non_buffer_witness :
  type (baseDBOp write_text_42) = Some "put"
  /\ isBuffer (value (baseDBOp write_text_42)) = false
  /\ DBOp_updateCache write_text_42 one_bucket empty_caches
     = (Return (), empty_caches).
Proof.
  split; [reflexivity|]. split; [reflexivity|].
  exact (@updateCache_non_buffer Reference.table Reference.table_cache
           write_text_42 one_bucket empty_caches eq_refl eq_refl).
Defined.

(** A write at [BloomBits] has no bucket: the caches stay as they are. *)
Example bloom_write_leaves_caches :
  exists d,
    @DBOp_set Reference.constants Reference.compress DBTarget.BloomBits
      (VBuffer [x00; x00; x05]) (Some bloom_3_7) = Return d
    /\ value (baseDBOp d) = Some (VBuffer [x02; x05])
    /\ DBOp_updateCache d one_bucket empty_caches = (Return (), empty_caches).
Proof. eexists. repeat split. Qed.

(** Two names for one cache: a write through either name is seen through
    both, and the caches at other references are untouched. *)
Example shared_cache_write :
  let cacheMap : gmap string nat :=
    {["numberToHash" := 0%nat; "header" := 0%nat; "body" := 1%nat]} in
  exists w,
    @DBOp_set Reference.constants Reference.compress DBTarget.NumberToHash
      (VBuffer [x0a; x0b]) (Some number_42) = Return w
    /\ (DBOp_updateCache w cacheMap empty_caches).2 0%nat
       = [(key (baseDBOp read_number_42), [x0a; x0b])]
    /\ (DBOp_updateCache w cacheMap empty_caches).2 1%nat = [].
Proof. eexists. repeat split. Qed.

(** ** Further properties of the entry points *)

Section Builder.
Context `{Constants} `{Compress}.

(** The constructor on a bundle that is present: the outcome is that of
    the one helper call. *)
Lemma DBOp_new_helper (t : DBTarget.t) (k : DatabaseKey) :
  In t derived_targets ->
  exists r, helper_call t k = Some r
            /\ DBOp_new t (Some k)
               = (key0 ← r;
                  Return (mkDBOp t
                            (mkDBOpData None key0 "binary" (Some "binary")
                               None)
                            (cache_bucket t))).
Proof.
  unfold_targets. simpl.
  intros Hin; repeat destruct Hin as [<-|Hin]; try contradiction;
    (eexists; split; reflexivity).
Qed.

Lemma cache_bucket_inj (t t' : DBTarget.t) (b : string) :
  cache_bucket t = Some b -> cache_bucket t' = Some b -> t = t'.
Proof.
  unfold cache_bucket.
  switch_on t; intros [= <-]; switch_on t'; intros [=]; reflexivity.
Qed.

Lemma cacheString_construct (e : Entry) (t : DBTarget.t)
    (dbkey : option DatabaseKey) (d : DBOp) :
  construct e t dbkey = Return d -> cacheString d = cache_bucket t.
Proof.
  intros E. apply construct_Return in E as (d0 & E0 & Ha).
  rewrite (address_cacheString _ _ Ha).
  now apply DBOp_new_Return in E0 as (_ & _ & _ & _ & _ & ->).
Qed.

Lemma DBOp_set_type (t : DBTarget.t) (v : Value)
    (dbkey : option DatabaseKey) (d : DBOp) :
  DBOp_set t v dbkey = Return d -> type (baseDBOp d) = Some "put".
Proof.
  unfold DBOp_set. intros E. apply bind_Return in E as (d0 & _ & E).
  destruct (t =? DBTarget.BloomBits).
  - apply bind_Return in E as (c & _ & E). now injection E as <-.
  - now injection E as <-.
Qed.

Lemma DBOp_del_type (t : DBTarget.t) (dbkey : option DatabaseKey) (d : DBOp) :
  DBOp_del t dbkey = Return d -> type (baseDBOp d) = Some "del".
Proof.
  unfold DBOp_del. intros E. apply bind_Return in E as (d0 & _ & E).
  now injection E as <-.
Qed.


(** X1.  At a derived-key target with the bundle omitted every entry point
    throws the [TypeError] of the first property read, whatever the helpers
    and [compressBytes] do: none of them is reached. *)
Theorem omitted_bundle_throws (e : Entry) (t : DBTarget.t) :
  In t derived_targets ->
  construct e t None = Throw (TypeError "Cannot read properties of undefined").
Proof.
  intros Hin. apply construct_Throw. now apply DBOp_new_no_bundle.
Qed.

(** X2.  At a derived-key target with a bundle present the constructor
    checks nothing itself: it makes the target's helper call on the fields
    as they are.  What the helper throws every entry point throws, and the
    key the helper returns is the key of every descriptor built. *)
Theorem derived_key_from_helper (t : DBTarget.t) (k : DatabaseKey) :
  In t derived_targets ->
  exists r, helper_call t k = Some r
    /\ (forall x, r = Throw x -> forall e, construct e t (Some k) = Throw x)
    /\ (forall key0, r = Return key0 ->
          (exists d, DBOp_get t (Some k) = Return d
                     /\ key (baseDBOp d) = key0)
          /\ forall e d, construct e t (Some k) = Return d ->
                         key (baseDBOp d) = key0).
Proof.
  intros Hin. destruct (DBOp_new_helper t k Hin) as (r & Hr & En).
  exists r. split; [exact Hr|]. split.
  - intros x -> e. apply construct_Throw. now rewrite En.
  - intros key0 ->. simpl in En. split.
    + eexists. split; [exact En|reflexivity].
    + intros e d E. apply construct_Return in E as (d0 & E0 & Ha).
      rewrite En in E0. injection E0 as <-.
      now rewrite (address_key _ _ Ha).
Qed.

(** X3.  The kind and the value of a descriptor come from the entry point
    alone: [get] leaves both unset, [del] sets the kind 'del' and no value,
    [set] sets the kind 'put' and a value; each records the target it was
    called with. *)
Theorem entry_point_kind (t : DBTarget.t) (dbkey : option DatabaseKey)
    (v : Value) :
  (forall d, DBOp_get t dbkey = Return d ->
     operationTarget d = t /\ type (baseDBOp d) = None
     /\ value (baseDBOp d) = None)
  /\ (forall d, DBOp_del t dbkey = Return d ->
        operationTarget d = t /\ type (baseDBOp d) = Some "del"
        /\ value (baseDBOp d) = None)
  /\ (forall d, DBOp_set t v dbkey = Return d ->
        operationTarget d = t /\ type (baseDBOp d) = Some "put"
        /\ is_Some (value (baseDBOp d))).
Proof.
  unfold DBOp_get, DBOp_del, DBOp_set. split; [|split]; intros d E.
  - apply DBOp_new_Return in E as (Ht & Hty & Hv & _). now repeat split.
  - apply bind_Return in E as (d0 & E0 & E). injection E as <-.
    apply DBOp_new_Return in E0 as (Ht & _ & Hv & _). now repeat split.
  - apply bind_Return in E as (d0 & E0 & E).
    apply DBOp_new_Return in E0 as (Ht & _ & _ & _).
    destruct (t =? DBTarget.BloomBits).
    + apply bind_Return in E as (c & _ & E). injection E as <-.
      repeat split; [exact Ht | now eexists].
    + injection E as <-. repeat split; [exact Ht | now eexists].
Qed.

(** X4.  The cache bucket of a descriptor is the one of its target, and no
    two targets have the same: descriptors that name one bucket were built
    at one target. *)
Theorem targets_do_not_share_buckets (e : Entry) (t : DBTarget.t)
    (dbkey : option DatabaseKey) (d : DBOp) :
  construct e t dbkey = Return d ->
  cacheString d = cache_bucket t
  /\ forall e' t' dbkey' d' b,
       construct e' t' dbkey' = Return d' ->
       cacheString d = Some b -> cacheString d' = Some b -> t = t'.
Proof.
  intros E. split; [now apply (cacheString_construct e t dbkey)|].
  intros e' t' dbkey' d' b E' Hd Hd'.
  rewrite (cacheString_construct _ _ _ _ E) in Hd.
  rewrite (cacheString_construct _ _ _ _ E') in Hd'.
  exact (cache_bucket_inj t t' b Hd Hd').
Qed.

(** X5.  The entry points fail together.  When [get] throws, [del] and
    [set] throw the same exception, and [compressBytes] is not called.
    When [get] returns, [del] returns, and [set] returns unless the target
    is [BloomBits] and [compressBytes] throws. *)
Theorem entry_points_fail_alike (t : DBTarget.t)
    (dbkey : option DatabaseKey) (v : Value) :
  (forall x, DBOp_get t dbkey = Throw x ->
     DBOp_del t dbkey = Throw x /\ DBOp_set t v dbkey = Throw x)
  /\ (forall d, DBOp_get t dbkey = Return d ->
        returns (DBOp_del t dbkey) = true
        /\ returns (DBOp_set t v dbkey)
           = if t =? DBTarget.BloomBits then returns (compressBytes v)
             else true).
Proof.
  unfold DBOp_get, DBOp_del, DBOp_set. split.
  - now intros x ->.
  - intros d ->. simpl. split; [reflexivity|].
    destruct (t =? DBTarget.BloomBits); [|reflexivity].
    now destruct (compressBytes v).
Qed.

End Builder.

(** ** Further properties of the cache synchroniser *)

Section Cached.
Context {C : Type} `{Cache C} `{Constants} `{Compress}.

(** A cache other than the one the bucket names is left alone. *)
Lemma updateCache_other (this : DBOp) (cacheMap : gmap string nat)
    (σ : nat -> C) (l l' : nat) :
  bucket this cacheMap = Some l -> l <> l' ->
  (DBOp_updateCache this cacheMap σ).2 l' = σ l'.
Proof.
  intros Hb Hne. rewrite updateCache_bucket, Hb.
  destruct (bool_decide (type (baseDBOp this) = Some "put")).
  - destruct (value (baseDBOp this)) as [[s|b|o]|]; try reflexivity.
    simpl. now rewrite fn_lookup_insert_ne.
  - destruct (bool_decide (type (baseDBOp this) = Some "del"));
      [|reflexivity].
    simpl. now rewrite fn_lookup_insert_ne.
Qed.

(** The bucket of a descriptor built at a cached target, in a container
    that holds it. *)
Lemma bucket_of_construct (e : Entry) (t : DBTarget.t)
    (dbkey : option DatabaseKey) (d : DBOp) (b : string)
    (cacheMap : gmap string nat) (l : nat) :
  construct e t dbkey = Return d -> cacheString d = Some b ->
  cacheMap !! b = Some l -> bucket d cacheMap = Some l.
Proof.
  intros E Hb Hl. unfold bucket. rewrite Hb. simpl.
  apply construct_Return in E as (d0 & E0 & Ha).
  apply address_cacheString in Ha. rewrite Hb in Ha.
  apply DBOp_new_Return in E0 as (_ & _ & _ & _ & _ & Hc).
  rewrite <- Ha in Hc. revert Hc. unfold cache_bucket.
  switch_on t; intros [= ->]; exact Hl.
Qed.

(** X6.  The synchroniser throws nothing but
    "unsupported db operation on cache", and when it throws the caches are
    as they were; on a descriptor built by [set] or by [del] it never
    throws, whatever the container. *)
Theorem updateCache_only_error (this : DBOp) (cacheMap : gmap string nat)
    (σ : nat -> C) :
  ((DBOp_updateCache this cacheMap σ).1 = Return ()
   \/ DBOp_updateCache this cacheMap σ
      = (Throw (Error "unsupported db operation on cache"), σ))
  /\ (forall t v dbkey, DBOp_set t v dbkey = Return this ->
        (DBOp_updateCache this cacheMap σ).1 = Return ())
  /\ (forall t dbkey, DBOp_del t dbkey = Return this ->
        (DBOp_updateCache this cacheMap σ).1 = Return ()).
Proof.
  assert (type (baseDBOp this) = Some "put"
          \/ type (baseDBOp this) = Some "del" ->
          (DBOp_updateCache this cacheMap σ).1 = Return ()) as Hk.
  { intros Hty. rewrite updateCache_bucket.
    destruct (bucket this cacheMap) as [l|]; [|reflexivity].
    destruct Hty as [Hty|Hty]; rewrite Hty; simpl.
    - now destruct (value (baseDBOp this)) as [[s|b|o]|].
    - reflexivity. }
  split; [|split].
  - rewrite updateCache_bucket.
    destruct (bucket this cacheMap) as [l|]; [|now left].
    destruct (bool_decide (type (baseDBOp this) = Some "put")).
    + left. now destruct (value (baseDBOp this)) as [[s|b|o]|].
    + destruct (bool_decide (type (baseDBOp this) = Some "del"));
        [now left | now right].
  - intros t v dbkey E. apply Hk. left. exact (DBOp_set_type t v dbkey _ E).
  - intros t dbkey E. apply Hk. right. exact (DBOp_del_type t dbkey _ E).
Qed.

(** X7.  A delete evicts whatever the cache holds: after synchronising a
    descriptor built by [del] at a cached target, the cache of its bucket
    has no entry under the descriptor's key, whether or not one was there
    before. *)
Theorem delete_evicts (t : DBTarget.t) (dbkey : option DatabaseKey)
    (d : DBOp) (b : string) (cacheMap : gmap string nat) (l : nat)
    (σ : nat -> C) :
  DBOp_del t dbkey = Return d -> cacheString d = Some b ->
  cacheMap !! b = Some l ->
  (DBOp_updateCache d cacheMap σ).1 = Return ()
  /\ cache_get ((DBOp_updateCache d cacheMap σ).2 l) (key (baseDBOp d))
     = None.
Proof.
  intros E Hb Hl.
  pose proof (bucket_of_construct ViaDel t dbkey d b cacheMap l E Hb Hl)
    as Hbk.
  pose proof (DBOp_del_type t dbkey d E) as Hty.
  rewrite updateCache_bucket, Hbk, Hty. simpl. split; [reflexivity|].
  rewrite fn_lookup_insert. apply cache_get_del.
Qed.

(** X8.  A write of a value that is no buffer does not evict: when a
    buffer was written and synchronised, and a string or an object is then
    written under the same key and synchronised, the cache still answers
    with the earlier buffer. *)
Theorem non_buffer_write_keeps_cached_buffer (t : DBTarget.t)
    (dbkey : option DatabaseKey) (v : Buffer) (s : Value) (d0 : DBOp)
    (b : string) (cacheMap : gmap string nat) (l : nat) (σ : nat -> C) :
  DBOp_get t dbkey = Return d0 -> cacheString d0 = Some b ->
  cacheMap !! b = Some l -> isBuffer (Some s) = false ->
  exists w w',
    DBOp_set t (VBuffer v) dbkey = Return w
    /\ DBOp_set t s dbkey = Return w'
    /\ key (baseDBOp w') = key (baseDBOp w)
    /\ value (baseDBOp w') = Some s
    /\ DBOp_updateCache w' cacheMap (DBOp_updateCache w cacheMap σ).2
       = (Return (), (DBOp_updateCache w cacheMap σ).2)
    /\ cache_get ((DBOp_updateCache w cacheMap σ).2 l) (key (baseDBOp w'))
       = Some v.
Proof.
  unfold DBOp_get. intros E0 Hb Hl Hs.
  assert (t <> DBTarget.BloomBits) as Hbb.
  { intros ->. apply DBOp_new_Return in E0 as (_ & _ & _ & _ & _ & Hc).
    rewrite Hb in Hc. discriminate. }
  assert (forall u, exists w,
            DBOp_set t u dbkey = Return w
            /\ w = assign_value u (assign_type "put" d0)) as Hset.
  { intros u. unfold DBOp_set. rewrite E0. simpl.
    destruct (Z.eqb_spec t DBTarget.BloomBits); [contradiction|].
    now eexists. }
  destruct (Hset (VBuffer v)) as (w & Ew & Hw).
  destruct (Hset s) as (w' & Ew' & Hw').
  exists w, w'. split; [exact Ew|]. split; [exact Ew'|].
  assert (cacheString w = Some b) as Hcw by (now subst w).
  assert (cacheString w' = Some b) as Hcw' by (now subst w').
  pose proof (bucket_of_construct (ViaSet (VBuffer v)) t dbkey w b cacheMap l
                Ew Hcw Hl) as Hbk.
  pose proof (bucket_of_construct (ViaSet s) t dbkey w' b cacheMap l
                Ew' Hcw' Hl) as Hbk'.
  split; [now subst w w'|]. split; [now subst w'|]. split.
  - rewrite (updateCache_bucket w'), Hbk'.
    replace (type (baseDBOp w')) with (Some "put") by (now subst w').
    replace (value (baseDBOp w')) with (Some s) by (now subst w').
    simpl. now destruct s.
  - rewrite updateCache_bucket, Hbk.
    replace (type (baseDBOp w)) with (Some "put") by (now subst w).
    replace (value (baseDBOp w)) with (Some (VBuffer v)) by (now subst w).
    simpl. rewrite fn_lookup_insert.
    replace (key (baseDBOp w')) with (key (baseDBOp w)) by (now subst w w').
    apply cache_get_set.
Qed.

(** X9.  In a container that shares no cache, synchronising an operation
    at one target leaves the cache of every other target as it was. *)
Theorem other_target_cache_untouched (e e' : Entry) (t t' : DBTarget.t)
    (dbkey dbkey' : option DatabaseKey) (d d' : DBOp) (b b' : string)
    (cacheMap : gmap string nat) (l l' : nat) (σ : nat -> C) :
  construct e t dbkey = Return d -> construct e' t' dbkey' = Return d' ->
  t <> t' -> unshared cacheMap ->
  cacheString d = Some b -> cacheMap !! b = Some l ->
  cacheString d' = Some b' -> cacheMap !! b' = Some l' ->
  (DBOp_updateCache d cacheMap σ).2 l' = σ l'.
Proof.
  intros E E' Hne Hun Hb Hl Hb' Hl'.
  apply (updateCache_other d cacheMap σ l l').
  - exact (bucket_of_construct e t dbkey d b cacheMap l E Hb Hl).
  - intros <-. apply Hne. pose proof (Hun b b' l Hl Hl') as <-.
    rewrite (cacheString_construct _ _ _ _ E) in Hb.
    rewrite (cacheString_construct _ _ _ _ E') in Hb'.
    exact (cache_bucket_inj t t' b Hb Hb').
Qed.

End Cached.

(** ** The further properties on the reference implementation *)

Example get_header_42 :
  @DBOp_get Reference.constants DBTarget.Header (Some number_hash_42)
  = Return read_header_42.
Proof. reflexivity. Qed.

Example del_number_42 :
  @DBOp_del Reference.constants DBTarget.NumberToHash (Some number_42)
  = Return delete_number_42.
Proof. reflexivity. Qed.

Example set_buffer_42 :
  @DBOp_set Reference.constants Reference.compress DBTarget.NumberToHash
    (VBuffer [x0a; x0b]) (Some number_42)
  = Return write_buffer_42.
Proof. reflexivity. Qed.

Lemma two_buckets_unshared : unshared two_buckets.
Proof.
  unfold unshared, two_buckets. intros n n' l Hn Hn'.
  apply lookup_insert_Some in Hn as [[<- <-]|[? Hn]];
    apply lookup_insert_Some in Hn' as [[<- Hl]|[? Hn']];
    try reflexivity;
    repeat match goal with
           | E : {[_ := _]} !! _ = Some _ |- _ =>
             apply lookup_singleton_Some in E as [<- ?]
           end;
    congruence.
Qed.



Lemma omitted_bundle_throws_witness :
  In DBTarget.BloomBits derived_targets
  /\ @construct Reference.constants Reference.compress
       (ViaSet (VString "text")) DBTarget.BloomBits None
     = Throw (TypeError "Cannot read properties of undefined").
Proof.
  assert (In DBTarget.BloomBits derived_targets) as Hin by (simpl; tauto).
  split; [exact Hin|].
  exact (@omitted_bundle_throws Reference.constants Reference.compress
           (ViaSet (VString "text")) DBTarget.BloomBits Hin).
Defined.

Lemma derived_key_from_helper_witness :
  In DBTarget.TotalDifficulty derived_targets
  /\ exists r,
       @helper_call Reference.constants DBTarget.TotalDifficulty number_hash_42
       = Some r
       /\ (forall x, r = Throw x ->
             forall e, @construct Reference.constants Reference.compress e
                         DBTarget.TotalDifficulty (Some number_hash_42)
                       = Throw x)
       /\ (forall key0, r = Return key0 ->
             (exists d,
                @DBOp_get Reference.constants DBTarget.TotalDifficulty
                  (Some number_hash_42) = Return d
                /\ key (baseDBOp d) = key0)
             /\ forall e d,
                  @construct Reference.constants Reference.compress e
                    DBTarget.TotalDifficulty (Some number_hash_42) = Return d ->
                  key (baseDBOp d) = key0).
Proof.
  assert (In DBTarget.TotalDifficulty derived_targets) as Hin
      by (simpl; tauto).
  split; [exact Hin|].
  exact (@derived_key_from_helper Reference.constants Reference.compress
           DBTarget.TotalDifficulty number_hash_42 Hin).
Defined.

Lemma targets_do_not_share_buckets_witness :
  @construct Reference.constants Reference.compress ViaGet
    DBTarget.NumberToHash (Some number_42) = Return read_number_42
  /\ cacheString read_number_42 = cache_bucket DBTarget.NumberToHash
  /\ forall e' t' dbkey' d' b,
       @construct Reference.constants Reference.compress e' t' dbkey'
       = Return d' ->
       cacheString read_number_42 = Some b -> cacheString d' = Some b ->
       DBTarget.NumberToHash = t'.
Proof.
  split; [reflexivity|].
  exact (@targets_do_not_share_buckets Reference.constants Reference.compress
           ViaGet DBTarget.NumberToHash (Some number_42) read_number_42
           eq_refl).
Defined.

Lemma delete_evicts_witness :
  @DBOp_del Reference.constants DBTarget.NumberToHash (Some number_42)
  = Return delete_number_42
  /\ cacheString delete_number_42 = Some "numberToHash"
  /\ one_bucket !! "numberToHash" = Some 0%nat
  /\ cache_get (filled_caches 0%nat) (key (baseDBOp delete_number_42))
     = Some [x0c]
  /\ (DBOp_updateCache delete_number_42 one_bucket filled_caches).1
     = Return ()
  /\ cache_get
       ((DBOp_updateCache delete_number_42 one_bucket filled_caches).2 0%nat)
       (key (baseDBOp delete_number_42))
     = None.
Proof.
  assert (one_bucket !! "numberToHash" = Some 0%nat) as Hl by reflexivity.
  split; [reflexivity|]. split; [reflexivity|]. split; [exact Hl|].
  split; [reflexivity|].
  exact (@delete_evicts Reference.table Reference.table_cache
           Reference.constants Reference.compress DBTarget.NumberToHash
           (Some number_42)
           delete_number_42 "numberToHash" one_bucket 0%nat filled_caches
           eq_refl eq_refl Hl).
Defined.

Lemma non_buffer_write_keeps_cached_buffer_witness :
  @DBOp_get Reference.constants DBTarget.NumberToHash (Some number_42)
  = Return read_number_42
  /\ cacheString read_number_42 = Some "numberToHash"
  /\ one_bucket !! "numberToHash" = Some 0%nat
  /\ isBuffer (Some (VString "text")) = false
  /\ exists w w',
       @DBOp_set Reference.constants Reference.compress
         DBTarget.NumberToHash (VBuffer [x0a; x0b]) (Some number_42)
       = Return w
       /\ @DBOp_set Reference.constants Reference.compress
            DBTarget.NumberToHash (VString "text") (Some number_42)
          = Return w'
       /\ key (baseDBOp w') = key (baseDBOp w)
       /\ value (baseDBOp w') = Some (VString "text")
       /\ DBOp_updateCache w' one_bucket
            (DBOp_updateCache w one_bucket empty_caches).2
          = (Return (), (DBOp_updateCache w one_bucket empty_caches).2)
       /\ cache_get ((DBOp_updateCache w one_bucket empty_caches).2 0%nat)
            (key (baseDBOp w'))
          = Some [x0a; x0b].
Proof.
  assert (one_bucket !! "numberToHash" = Some 0%nat) as Hl by reflexivity.
  split; [reflexivity|]. split; [reflexivity|]. split; [exact Hl|].
  split; [reflexivity|].
  exact (@non_buffer_write_keeps_cached_buffer Reference.table
           Reference.table_cache Reference.constants Reference.compress
           DBTarget.NumberToHash (Some number_42) [x0a; x0b] (VString "text")
           read_number_42 "numberToHash" one_bucket 0%nat empty_caches
           eq_refl eq_refl Hl eq_refl).
Defined.

Lemma other_target_cache_untouched_witness :
  @construct Reference.constants Reference.compress (ViaSet (VBuffer [x0a; x0b]))
    DBTarget.NumberToHash (Some number_42) = Return write_buffer_42
  /\ @construct Reference.constants Reference.compress ViaGet
       DBTarget.Header (Some number_hash_42) = Return read_header_42
  /\ DBTarget.NumberToHash <> DBTarget.Header
  /\ unshared two_buckets
  /\ cacheString write_buffer_42 = Some "numberToHash"
  /\ two_buckets !! "numberToHash" = Some 0%nat
  /\ cacheString read_header_42 = Some "header"
  /\ two_buckets !! "header" = Some 1%nat
  /\ (DBOp_updateCache write_buffer_42 two_buckets filled_caches).2 1%nat
     = filled_caches 1%nat.
Proof.
  assert (DBTarget.NumberToHash <> DBTarget.Header) as Hne by discriminate.
  assert (two_buckets !! "numberToHash" = Some 0%nat) as Hl by reflexivity.
  assert (two_buckets !! "header" = Some 1%nat) as Hl' by reflexivity.
  split; [reflexivity|]. split; [reflexivity|]. split; [exact Hne|].
  split; [exact two_buckets_unshared|]. split; [reflexivity|].
  split; [exact Hl|]. split; [reflexivity|]. split; [exact Hl'|].
  exact (@other_target_cache_untouched Reference.table Reference.table_cache
           Reference.constants Reference.compress
           (ViaSet (VBuffer [x0a; x0b])) ViaGet DBTarget.NumberToHash
           DBTarget.Header (Some number_42) (Some number_hash_42)
           write_buffer_42 read_header_42 "numberToHash" "header" two_buckets
           0%nat 1%nat filled_caches eq_refl eq_refl Hne two_buckets_unshared
           eq_refl Hl eq_refl Hl').
Defined.
